(** * scripts/extract_snippets.py: the snippet extractor

    A shallow embedding of the one function of the script, [main]: it reads a
    JSON mapping of snippet objects, rewrites every entry's first trigger into
    a bracketed key, flattens the entry's body into one string and stores the
    pair in an insertion-ordered dictionary, counting the keys it overwrites.

    Python values are an inductive type over what [json.load] can return,
    dictionaries are association lists in insertion order (the order is
    observable: it is the order of the written file and of the keys shown in
    the warning), exceptions are an error monad, and printing and writing are
    a trace of events.  Strings are Rocq strings read as UTF-8: the only
    character the code inspects is the backslash, one byte that is never part
    of a longer UTF-8 sequence, so testing and dropping the first character is
    testing and dropping the first byte. *)

From Stdlib Require Import String Ascii List Bool Arith ZArith Lia.
From Stdlib Require Import Floats.SpecFloat DecimalString.
Import ListNotations.
Local Open Scope list_scope.
Local Open Scope string_scope.

Set Implicit Arguments.

(** ** Python values and exceptions *)

(** What [json.load] builds: None, bool, int, float, str, list and dict.
    A float is an IEEE 754 value; a dict keeps its items in insertion order. *)
#[warnings="-register-all"]
Inductive pyval : Type :=
| PNone
| PBool (b : bool)
| PInt (z : Z)
| PFloat (f : spec_float)
| PStr (s : string)
| PList (l : list pyval)
| PDict (d : list (string * pyval)).

(** The exceptions the script can meet.  Only [JSONDecodeError] at load time
    and [IOError] at write time are caught; those two are outcomes of the
    environment below and never travel through the error monad. *)
Inductive exn : Type :=
| AttributeError
| TypeError
| UnicodeDecodeError
| OSError.

Inductive result (A : Type) : Type :=
| Ok (a : A)
| Raise (e : exn).

Arguments Ok {A} a.
Arguments Raise {A} e.

Definition bind {A B : Type} (m : result A) (k : A -> result B) : result B :=
  match m with
  | Ok a => k a
  | Raise e => Raise e
  end.

Notation "x <- m ;; k" := (bind m (fun x => k))
  (at level 61, m at next level, right associativity).

(** ** Insertion-ordered dictionaries *)

Module PyDict.

Section Ops.
Variable V : Type.

(** [d.get(k)], before the default is applied. *)
Fixpoint get (k : string) (d : list (string * V)) : option V :=
  match d with
  | [] => None
  | (k', v) :: d' => if String.eqb k k' then Some v else get k d'
  end.

(** [k in d]. *)
Definition mem (k : string) (d : list (string * V)) : bool :=
  match get k d with
  | Some _ => true
  | None => false
  end.

(** [d[k] = v]: a key already present keeps its position and takes the new
    value; a new key goes to the end. *)
Fixpoint set (k : string) (v : V) (d : list (string * V)) : list (string * V) :=
  match d with
  | [] => [(k, v)]
  | (k', v') :: d' =>
      if String.eqb k k' then (k, v) :: d' else (k', v') :: set k v d'
  end.

(** [d.get(k, dflt)]. *)
Definition get_default (k : string) (dflt : V) (d : list (string * V)) : V :=
  match get k d with
  | Some v => v
  | None => dflt
  end.

(** [list(d.keys())]. *)
Definition keys (d : list (string * V)) : list string := map fst d.
End Ops.

End PyDict.

(** ** Builtins the script calls *)

(** The line feed of ["\n".join(body)]. *)
Definition LF : string := String "010"%char EmptyString.

(** [bool(v)], as [not prefix] evaluates it: None, False, zero, the empty
    string, the empty list and the empty dict are false. *)
Definition py_truthy (v : pyval) : bool :=
  match v with
  | PNone => false
  | PBool b => b
  | PInt z => negb (Z.eqb z 0)
  | PFloat (S754_zero _) => false
  | PFloat _ => true
  | PStr s => negb (String.eqb s "")
  | PList [] => false
  | PList (_ :: _) => true
  | PDict [] => false
  | PDict (_ :: _) => true
  end.

(** [obj.get(k)]: only a dict has the method; a missing key gives None. *)
Definition py_get (obj : pyval) (k : string) : result pyval :=
  match obj with
  | PDict d => Ok (PyDict.get_default k PNone d)
  | _ => Raise AttributeError
  end.

(** [data.items()]: only a dict has the method. *)
Definition py_items (data : pyval) : result (list (string * pyval)) :=
  match data with
  | PDict d => Ok d
  | _ => Raise AttributeError
  end.

(** [s.startswith(p)]. *)
Definition startswith (s p : string) : bool := String.prefix p s.

(** [s[n:]]. *)
Definition slice_from (n : nat) (s : string) : string :=
  substring n (String.length s - n) s.

(** The items of a list handed to [str.join]: the first item that is not a
    str raises TypeError. *)
Fixpoint str_items (l : list pyval) : result (list string) :=
  match l with
  | [] => Ok []
  | PStr s :: l' => ss <- str_items l' ;; Ok (s :: ss)
  | _ :: _ => Raise TypeError
  end.

(** [sep.join(l)]. *)
Definition str_join (sep : string) (l : list pyval) : result string :=
  ss <- str_items l ;; Ok (String.concat sep ss).

(** [os.path.join(a, b)] on a POSIX system. *)
Definition path_join (a b : string) : string :=
  if startswith b "/" then b
  else if String.eqb a "" then b
  else if String.eqb (slice_from (String.length a - 1) a) "/" then a ++ b
  else a ++ "/" ++ b.

(** [str(n)] for a length. *)
Definition str_of_nat (n : nat) : string :=
  NilZero.string_of_uint (Nat.to_uint n).

(** ** The environment of a run and what a run does to it *)

(** What [json.load] does on an existing file: it returns the parsed value,
    or raises [JSONDecodeError] with a message, or the read itself raises
    something else (bytes that are not UTF-8, a directory, no permission). *)
Inductive load_outcome : Type :=
| Parsed (data : pyval)
| JSONDecodeError (msg : string)
| LoadRaises (e : exn).

(** The command line, the working directory and the file system as the
    script consults them.  [write_error p] is the message of the [IOError]
    that opening or writing [p] raises, if it raises one. *)
Record env : Type := {
  argv : list string;
  cwd : string;
  path_exists : string -> bool;
  json_load : string -> load_outcome;
  write_error : string -> option string
}.

(** A line printed on standard output, or the table dumped to a path. *)
Inductive event : Type :=
| EvPrint (line : string)
| EvWrite (path : string) (table : list (string * string)).

(** How the process ends: [main] returns, [sys.exit(code)], or an exception
    nobody catches: the interpreter then prints a traceback on standard error,
    which is not a line the script prints, and leaves with status 1. *)
Inductive termination : Type :=
| Returned
| SysExit (code : Z)
| Uncaught (e : exn).


(** The two dictionaries of the loop. *)
Record state : Type := {
  out : list (string * string);
  duplicates : list (string * nat)
}.

Definition init : state := {| out := []; duplicates := [] |}.

(** ** The script *)

Section Extractor.

(** [str(v)], the builtin.  The script calls it on a body that is neither
    None, a list nor a str, and, through the f-string of the warning, on the
    list of example keys. *)
Variable py_str : pyval -> string.

(** Lines 27-38: the first trigger of an entry, or nothing when the entry
    is passed over by [continue]. *)
Definition selectPrefix (prefix : pyval) : option pyval :=
  if negb (py_truthy prefix) then None
  else
    match prefix with
    | PList l =>
        match l with
        | [] => None
        | raw_key :: _ => Some raw_key
        end
    | PStr _ => Some prefix
    | _ => None
    end.

(** Lines 42-51: [raw_key.startswith] exists on a str only. *)
Definition normalizeKey (raw_key : pyval) : result string :=
  match raw_key with
  | PStr s =>
      if startswith s "\" then Ok ("\<" ++ slice_from 1 s ++ ">")
      else Ok ("\<" ++ s ++ ">")
  | _ => Raise AttributeError
  end.

(** Lines 54-61, on the value of [snippet_obj.get('body')]. *)
Definition flattenBody (body : pyval) : result string :=
  match body with
  | PNone => Ok ""
  | PList l => str_join LF l
  | PStr s => Ok s
  | _ => Ok (py_str body)
  end.

(** Lines 63-66. *)
Definition record (key body_str : string) (st : state) : state :=
  {| out := PyDict.set key body_str (out st);
     duplicates :=
       if PyDict.mem key (out st)
       then PyDict.set key (PyDict.get_default key 0 (duplicates st) + 1)
              (duplicates st)
       else duplicates st |}.

(** Lines 26-66: one turn of the loop on the value of an item. *)
Definition loop_body (st : state) (snippet_obj : pyval) : result state :=
  prefix <- py_get snippet_obj "prefix" ;;
  match selectPrefix prefix with
  | None => Ok st
  | Some raw_key =>
      key <- normalizeKey raw_key ;;
      body <- py_get snippet_obj "body" ;;
      body_str <- flattenBody body ;;
      Ok (record key body_str st)
  end.

(** Line 25: the loop over the items, in their order. *)
Fixpoint for_items (items : list (string * pyval)) (st : state) : result state :=
  match items with
  | [] => Ok st
  | (_, snippet_obj) :: items' =>
      st' <- loop_body st snippet_obj ;; for_items items' st'
  end.

(** Lines 22-66. *)
Definition build (data : pyval) : result state :=
  items <- py_items data ;; for_items items init.

(** Lines 8 and 9. *)
Definition input_path (e : env) : string :=
  match argv e with
  | _ :: p :: _ => p
  | _ => path_join (cwd e) "snippets.json"
  end.

Definition output_path (e : env) : string :=
  match argv e with
  | _ :: _ :: p :: _ => p
  | _ => path_join (cwd e) "snippets_extracted.json"
  end.

(** Lines 68-76. *)
Definition save (e : env) (st : state) : list event * termination :=
  match write_error e (output_path e) with
  | Some msg =>
      ([EvPrint ("Error: Failed to write to '" ++ output_path e ++ "': " ++ msg)],
       SysExit 1)
  | None =>
      (EvWrite (output_path e) (out st)
       :: EvPrint ("Successfully extracted " ++ str_of_nat (List.length (out st))
                   ++ " snippets to '" ++ output_path e ++ "'.")
       :: match duplicates st with
          | [] => []
          | _ :: _ =>
              [EvPrint ("Warning: " ++ str_of_nat (List.length (duplicates st))
                        ++ " duplicate keys encountered (last write wins). Examples: "
                        ++ py_str (PList (map PStr
                             (firstn 5 (PyDict.keys (duplicates st))))))]
          end,
       Returned)
  end.

(** Lines 5-76. *)
Definition main (e : env) : list event * termination :=
  if negb (path_exists e (input_path e)) then
    ([EvPrint ("Error: Input file '" ++ input_path e ++ "' not found.")],
     SysExit 1)
  else
    match json_load e (input_path e) with
    | JSONDecodeError msg =>
        ([EvPrint ("Error: Failed to parse JSON from '" ++ input_path e
                   ++ "': " ++ msg)],
         SysExit 1)
    | LoadRaises x => ([], Uncaught x)
    | Parsed data =>
        match build data with
        | Raise x => ([], Uncaught x)
        | Ok st => save e st
        end
    end.

End Extractor.

(** ** Vocabulary of the statements *)

(** [isinstance(v, str)]. *)
Definition is_str (v : pyval) : bool :=
  match v with
  | PStr _ => true
  | _ => false
  end.

(** The key and the body one turn of the loop computes before it touches the
    dictionaries: nothing for an entry passed over. *)
Definition contribution (py_str : pyval -> string) (snippet_obj : pyval)
  : result (option (string * string)) :=
  prefix <- py_get snippet_obj "prefix" ;;
  match selectPrefix prefix with
  | None => Ok None
  | Some raw_key =>
      key <- normalizeKey raw_key ;;
      body <- py_get snippet_obj "body" ;;
      body_str <- flattenBody py_str body ;;
      Ok (Some (key, body_str))
  end.

(** The effect of a contribution on the two dictionaries. *)
Definition apply_contribution (c : option (string * string)) (st : state) : state :=
  match c with
  | None => st
  | Some (key, body_str) => record key body_str st
  end.

(** Whether an entry contributes the key [k]. *)
Definition yields (py_str : pyval -> string) (k : string) (snippet_obj : pyval)
  : bool :=
  match contribution py_str snippet_obj with
  | Ok (Some (k', _)) => String.eqb k k'
  | _ => false
  end.

(** How many entries of the table contribute the key [k]. *)
Definition occurrences (py_str : pyval -> string) (k : string)
           (items : list (string * pyval)) : nat :=
  List.length (filter (fun e => yields py_str k (snd e)) items).

(** The key the specification describes for a raw trigger: the text after one
    leading backslash, or else the whole trigger, between a backslash with an
    opening angle bracket and a closing angle bracket. *)
Definition bracketed (raw : string) : string :=
  match raw with
  | String c rest =>
      if Ascii.eqb c "\"%char then "\<" ++ rest ++ ">" else "\<" ++ raw ++ ">"
  | EmptyString => "\<" ++ raw ++ ">"
  end.

(** A run of [n] backslashes. *)
Fixpoint backslashes (n : nat) : string :=
  match n with
  | O => ""
  | S n' => String "\"%char (backslashes n')
  end.


(** A table of one entry with the given prefix and body. *)
Definition one_entry (name : string) (prefix body : pyval) : string * pyval :=
  (name, PDict [("prefix", prefix); ("body", body)]).

(** A run environment whose files are given by what loading them does. *)
Definition env_of (args : list string) (files : list (string * load_outcome)) : env :=
  {| argv := args;
     cwd := "/work";
     path_exists := fun p => PyDict.mem p files;
     json_load := fun p => PyDict.get_default p (LoadRaises OSError) files;
     write_error := fun _ => None |}.

(** An instance of the builtin [str] to run the script on examples: exact on
    None, booleans, integers and strings.  The repr of a float and of a
    container (shortest float printing, the quoting of strings) is not
    developed here and is shown as an ellipsis; every theorem below holds for
    any instance. *)
Definition str_example (v : pyval) : string :=
  match v with
  | PNone => "None"
  | PBool true => "True"
  | PBool false => "False"
  | PInt z => NilZero.string_of_int (Z.to_int z)
  | PStr s => s
  | _ => "..."
  end.

(** [isinstance(v, dict)]. *)
Definition is_dict (v : pyval) : bool :=
  match v with
  | PDict _ => true
  | _ => false
  end.

(** The keys the entries of a table contribute, in the order of the entries;
    an entry passed over, or one that raises, contributes none. *)
Definition contributed_keys (py_str : pyval -> string)
           (items : list (string * pyval)) : list string :=
  flat_map (fun e => match contribution py_str (snd e) with
                     | Ok (Some (k, _)) => [k]
                     | _ => []
                     end) items.

(** The sum of the counters of a dictionary of counters. *)
Definition total (d : list (string * nat)) : nat := list_sum (map snd d).

(** Whether one turn of the loop on the entry ends without an exception. *)
Definition entry_ok (py_str : pyval -> string) (snippet_obj : pyval) : bool :=
  match contribution py_str snippet_obj with
  | Ok _ => true
  | Raise _ => false
  end.

(** A field as the input format describes it: missing or null, one string,
    or a list of strings. *)
Definition text_or_lines (v : pyval) : bool :=
  match v with
  | PNone => true
  | PStr _ => true
  | PList l => forallb is_str l
  | _ => false
  end.

(** An entry as the input format describes it: an object whose prefix and
    body are each missing, a string or a list of strings. *)
Definition well_formed_entry (snippet_obj : pyval) : bool :=
  match snippet_obj with
  | PDict d =>
      text_or_lines (PyDict.get_default "prefix" PNone d)
      && text_or_lines (PyDict.get_default "body" PNone d)
  | _ => false
  end.

(** The value [json.load] returns for a file that [json.dump] wrote from a
    table of strings: an object with the same keys, in order, and the bodies
    as strings. *)
Definition reloaded (table : list (string * string)) : pyval :=
  PDict (map (fun kv => (fst kv, PStr (snd kv))) table).

(** The write events of a trace. *)
Definition writes (tr : list event) : list (string * list (string * string)) :=
  flat_map (fun ev => match ev with
                      | EvWrite p t => [(p, t)]
                      | EvPrint _ => []
                      end) tr.

(** The lines a trace prints. *)
Definition printed (tr : list event) : list string :=
  flat_map (fun ev => match ev with
                      | EvPrint line => [line]
                      | EvWrite _ _ => []
                      end) tr.

(** ** Strings *)

Lemma substring_all (s : string) : substring 0 (String.length s) s = s.
Proof.
  induction s as [|c s IH]; simpl; [reflexivity | now rewrite IH].
Qed.

Lemma slice_from_1_cons (c : ascii) (s : string) : slice_from 1 (String c s) = s.
Proof.
  unfold slice_from. simpl. rewrite Nat.sub_0_r. apply substring_all.
Qed.

Lemma startswith_backslash (c : ascii) (s : string) :
  startswith (String c s) "\" = Ascii.eqb c "\"%char.
Proof.
  unfold startswith.
  change (String.prefix "\" (String c s))
    with (if ascii_dec "\"%char c then String.prefix "" s else false).
  destruct (ascii_dec "\"%char c) as [<- | Hne].
  - rewrite Ascii.eqb_refl. now destruct s.
  - symmetry. apply Ascii.eqb_neq. congruence.
Qed.

Lemma append_assoc (a b c : string) : (a ++ b) ++ c = a ++ b ++ c.
Proof.
  induction a as [|x a IH]; simpl; [reflexivity | now rewrite IH].
Qed.


(** ** Key normalisation *)

Lemma normalizeKey_bracketed (raw : string) :
  normalizeKey (PStr raw) = Ok (bracketed raw).
Proof.
  destruct raw as [|c rest]; [reflexivity|].
  unfold normalizeKey, bracketed.
  rewrite startswith_backslash, slice_from_1_cons.
  now destruct (Ascii.eqb c "\"%char).
Qed.

(** C1: for every raw trigger that is a string, normalizeKey returns the rest
    of the trigger after a leading backslash, or else the entire trigger,
    wrapped as backslash, opening angle bracket, text, closing angle bracket;
    the prefix foo gives the key \<foo> and the prefix \zero the key \<zero>,
    also through the loop. *)
Theorem normalizeKey_wraps (py_str : pyval -> string) :
  (forall rest : string,
      normalizeKey (PStr (String "\"%char rest)) = Ok ("\<" ++ rest ++ ">")) /\
  (forall raw : string,
      startswith raw "\" = false ->
      normalizeKey (PStr raw) = Ok ("\<" ++ raw ++ ">")) /\
  (forall (c : ascii) (rest : string),
      c <> "\"%char ->
      normalizeKey (PStr (String c rest)) = Ok ("\<" ++ String c rest ++ ">")) /\
  normalizeKey (PStr "foo") = Ok "\<foo>" /\
  normalizeKey (PStr "\zero") = Ok "\<zero>" /\
  (forall body : string,
      build py_str (PDict [one_entry "n" (PStr "foo") (PStr body)])
      = Ok {| out := [("\<foo>", body)]; duplicates := [] |}) /\
  (forall body : string,
      build py_str (PDict [one_entry "n" (PStr "\zero") (PStr body)])
      = Ok {| out := [("\<zero>", body)]; duplicates := [] |}).
Proof.
  repeat split; try reflexivity.
  - intros rest. rewrite normalizeKey_bracketed. simpl. reflexivity.
  - intros raw Hraw. rewrite normalizeKey_bracketed.
    destruct raw as [|c rest]; [reflexivity|].
    rewrite startswith_backslash in Hraw. simpl. now rewrite Hraw.
  - intros c rest Hc. rewrite normalizeKey_bracketed.
    apply Ascii.eqb_neq in Hc. simpl. now rewrite Hc.
Qed.

Lemma normalizeKey_wraps_witness :
  startswith "a\b" "\" = false /\ normalizeKey (PStr "a\b") = Ok "\<a\b>".
Proof.
  split; [reflexivity|].
  exact (proj1 (proj2 (normalizeKey_wraps str_example)) "a\b" eq_refl).
Defined.

(** C7: normalizeKey drops exactly one leading backslash however many follow,
    looking at the first character only, and treats a trigger that is already
    bracketed like any other: \<zero> becomes \<<zero>>, and the entry is
    selected and stored under that key, not passed over. *)
Theorem normalizeKey_one_backslash (py_str : pyval -> string) :
  (forall (n : nat) (rest : string),
      normalizeKey (PStr (backslashes (S n) ++ rest))
      = Ok ("\<" ++ backslashes n ++ rest ++ ">")) /\
  (forall (c : ascii) (rest rest' : string),
      startswith (String c rest) "\" = startswith (String c rest') "\") /\
  normalizeKey (PStr "\<zero>") = Ok "\<<zero>>" /\
  selectPrefix (PStr "\<zero>") = Some (PStr "\<zero>") /\
  (forall body : string,
      build py_str (PDict [one_entry "n" (PStr "\<zero>") (PStr body)])
      = Ok {| out := [("\<<zero>>", body)]; duplicates := [] |}).
Proof.
  repeat split; try reflexivity.
  - intros n rest. rewrite normalizeKey_bracketed. simpl.
    now rewrite append_assoc.
  - intros c rest rest'. now rewrite !startswith_backslash.
Qed.

(** ** Bodies *)





(** A list with an item that is not a string is not a list of lines: the
    join raises TypeError. *)
Lemma flattenBody_not_lines (py_str : pyval -> string) (ls : list string)
      (v : pyval) (l : list pyval) :
  (forall s, v <> PStr s) ->
  flattenBody py_str (PList (map PStr ls ++ v :: l)%list) = Raise TypeError.
Proof.
  intros Hv. unfold flattenBody, str_join.
  induction ls as [|s ls IH]; simpl.
  - destruct v; try reflexivity. now destruct (Hv s).
  - destruct (str_items (map PStr ls ++ v :: l)%list); [discriminate IH|].
    simpl in *. exact IH.
Qed.

(** ** Selecting the trigger *)

Lemma loop_body_skip (py_str : pyval -> string) (st : state)
      (d : list (string * pyval)) :
  selectPrefix (PyDict.get_default "prefix" PNone d) = None ->
  loop_body py_str st (PDict d) = Ok st.
Proof.
  intros H. unfold loop_body, py_get, bind. now rewrite H.
Qed.

(** C4: selectPrefix passes over the entry, which then leaves both
    dictionaries as they were and raises nothing, when the prefix is the empty
    string, the empty list, absent or null, a number, a boolean or an object;
    from a non-empty list it takes the first element, and a non-empty string
    it takes as it is. *)
Theorem selectPrefix_cases (py_str : pyval -> string) :
  selectPrefix (PStr "") = None /\
  selectPrefix (PList []) = None /\
  selectPrefix PNone = None /\
  (forall z : Z, selectPrefix (PInt z) = None) /\
  (forall f : spec_float, selectPrefix (PFloat f) = None) /\
  (forall b : bool, selectPrefix (PBool b) = None) /\
  (forall d : list (string * pyval), selectPrefix (PDict d) = None) /\
  (forall (x : pyval) (l : list pyval), selectPrefix (PList (x :: l)) = Some x) /\
  (forall (c : ascii) (s : string),
      selectPrefix (PStr (String c s)) = Some (PStr (String c s))) /\
  (forall (st : state) (d : list (string * pyval)),
      PyDict.get "prefix" d = None -> loop_body py_str st (PDict d) = Ok st) /\
  (forall (st : state) (d : list (string * pyval)),
      selectPrefix (PyDict.get_default "prefix" PNone d) = None ->
      loop_body py_str st (PDict d) = Ok st) /\
  build py_str (PDict [("a", PDict [("prefix", PStr ""); ("body", PStr "x")]);
                      ("b", PDict [("prefix", PList []); ("body", PStr "y")]);
                      ("c", PDict [("body", PStr "z")]);
                      ("d", PDict [("prefix", PInt 3); ("body", PStr "w")])])
  = Ok init.
Proof.
  repeat split; try reflexivity.
  - intros z. unfold selectPrefix. now destruct (py_truthy (PInt z)).
  - intros f. unfold selectPrefix. now destruct (py_truthy (PFloat f)).
  - intros b. unfold selectPrefix. now destruct (py_truthy (PBool b)).
  - intros d. unfold selectPrefix. now destruct (py_truthy (PDict d)).
  - intros st d H. apply loop_body_skip.
    unfold PyDict.get_default. now rewrite H.
  - intros st d H. now apply loop_body_skip.
Qed.

Lemma selectPrefix_cases_witness :
  selectPrefix (PyDict.get_default "prefix" PNone [("prefix", PBool true)]) = None /\
  loop_body str_example {| out := [("\<k>", "b")]; duplicates := [] |}
            (PDict [("prefix", PBool true)])
  = Ok {| out := [("\<k>", "b")]; duplicates := [] |}.
Proof.
  split; [reflexivity|].
  exact (proj1 (proj2 (proj2 (proj2 (proj2 (proj2 (proj2 (proj2 (proj2 (proj2 (proj2
    (selectPrefix_cases str_example)))))))))))
    {| out := [("\<k>", "b")]; duplicates := [] |}
    [("prefix", PBool true)] eq_refl).
Defined.

(** ** What an entry contributes *)

Lemma loop_body_contribution (py_str : pyval -> string) (st : state) (obj : pyval) :
  loop_body py_str st obj
  = c <- contribution py_str obj ;; Ok (apply_contribution c st).
Proof.
  unfold loop_body, contribution.
  destruct (py_get obj "prefix") as [prefix|x]; simpl; [|reflexivity].
  destruct (selectPrefix prefix) as [raw_key|]; [|reflexivity].
  destruct (normalizeKey raw_key) as [key|x]; simpl; [|reflexivity].
  destruct (py_get obj "body") as [body|x]; simpl; [|reflexivity].
  now destruct (flattenBody py_str body).
Qed.

(** An entry contributes a key and a body exactly when it is a dict whose
    prefix selects a trigger that normalises to the key and whose body
    flattens to the body. *)
Lemma contribution_some (py_str : pyval -> string) (obj : pyval) (k v : string) :
  contribution py_str obj = Ok (Some (k, v)) <->
  exists (d : list (string * pyval)) (raw_key : pyval),
    obj = PDict d /\
    selectPrefix (PyDict.get_default "prefix" PNone d) = Some raw_key /\
    normalizeKey raw_key = Ok k /\
    flattenBody py_str (PyDict.get_default "body" PNone d) = Ok v.
Proof.
  unfold contribution. split.
  - destruct obj; try discriminate. simpl.
    destruct (selectPrefix _) as [raw_key|] eqn:Hsel; [|discriminate].
    destruct (normalizeKey raw_key) as [key|] eqn:Hkey; simpl; [|discriminate].
    destruct (flattenBody _ _) as [b|] eqn:Hb; simpl; [|discriminate].
    intros [= <- <-]. now exists d, raw_key.
  - intros (d & raw_key & -> & Hsel & Hkey & Hbody). simpl.
    rewrite Hsel, Hkey. simpl. now rewrite Hbody.
Qed.

(** Every key the loop can produce starts with a backslash and an opening
    angle bracket, so it is not the empty string. *)
Lemma normalizeKey_nonempty (raw_key : pyval) (k : string) :
  normalizeKey raw_key = Ok k -> k <> "".
Proof.
  destruct raw_key; try discriminate. simpl.
  destruct (startswith s "\"); intros [= <-]; discriminate.
Qed.

(** ** Facts on insertion-ordered dictionaries *)

Module PyDictFacts.
Import PyDict.

Section Facts.
Variable V : Type.
Implicit Types (k : string) (v : V) (d : list (string * V)).

Lemma get_set_eq k v d : get k (set k v d) = Some v.
Proof.
  induction d as [|[k' v'] d IH]; simpl.
  - now rewrite String.eqb_refl.
  - destruct (String.eqb k k') eqn:E; simpl.
    + now rewrite String.eqb_refl.
    + now rewrite E.
Qed.

Lemma get_set_neq k k' v d : k' <> k -> get k' (set k v d) = get k' d.
Proof.
  intros Hne. apply String.eqb_neq in Hne.
  induction d as [|[k0 v0] d IH]; simpl.
  - now rewrite Hne.
  - destruct (String.eqb k k0) eqn:E; simpl.
    + apply String.eqb_eq in E. subst k0. now rewrite Hne.
    + now rewrite IH.
Qed.

Lemma get_set k k' v d :
  get k' (set k v d) = if String.eqb k' k then Some v else get k' d.
Proof.
  destruct (String.eqb_spec k' k) as [->|Hne].
  - apply get_set_eq.
  - now apply get_set_neq.
Qed.

Lemma mem_set k k' v d : mem k' (set k v d) = String.eqb k' k || mem k' d.
Proof.
  unfold mem. rewrite get_set. now destruct (String.eqb k' k).
Qed.

Lemma get_default_set k k' v dflt d :
  get_default k' dflt (set k v d)
  = if String.eqb k' k then v else get_default k' dflt d.
Proof.
  unfold get_default. rewrite get_set. now destruct (String.eqb k' k).
Qed.

Lemma get_In k v d : get k d = Some v -> In (k, v) d.
Proof.
  induction d as [|[k' v'] d IH]; simpl; [discriminate|].
  destruct (String.eqb_spec k k') as [->|Hne].
  - intros [= ->]. now left.
  - intros H. right. now apply IH.
Qed.

Lemma get_none_keys k d : get k d = None -> ~ In k (keys d).
Proof.
  induction d as [|[k' v'] d IH]; simpl; [tauto|].
  destruct (String.eqb_spec k k') as [->|Hne]; [discriminate|].
  intros H [Heq|Hin]; [congruence | now apply IH].
Qed.

Lemma In_get k v d : NoDup (keys d) -> In (k, v) d -> get k d = Some v.
Proof.
  induction d as [|[k' v'] d IH]; simpl; [tauto|].
  intros Hnd [[= -> ->]|Hin].
  - now rewrite String.eqb_refl.
  - inversion Hnd as [|? ? Hk' Hnd']; subst.
    destruct (String.eqb_spec k k') as [->|Hne].
    + exfalso. apply Hk'. change k' with (fst (k', v)). now apply in_map.
    + now apply IH.
Qed.

Lemma keys_set_In k k' v d :
  In k' (keys (set k v d)) <-> k' = k \/ In k' (keys d).
Proof.
  induction d as [|[k0 v0] d IH]; simpl.
  - intuition.
  - destruct (String.eqb_spec k k0) as [->|Hne]; simpl.
    + intuition.
    + rewrite IH. intuition.
Qed.

Lemma keys_set_NoDup k v d : NoDup (keys d) -> NoDup (keys (set k v d)).
Proof.
  induction d as [|[k0 v0] d IH]; simpl; intros Hnd.
  - constructor; [tauto | constructor].
  - inversion Hnd as [|? ? Hk0 Hnd']; subst.
    destruct (String.eqb_spec k k0) as [->|Hne]; simpl.
    + now constructor.
    + constructor; [|now apply IH].
      rewrite keys_set_In. intros [Heq|Hin]; [congruence | contradiction].
Qed.
End Facts.

End PyDictFacts.

(** ** One insertion *)

Section Record.
Import PyDict PyDictFacts.
Implicit Types (st : state) (k key body_str : string).

Lemma record_out_get key body_str st k :
  get k (out (record key body_str st))
  = if String.eqb k key then Some body_str else get k (out st).
Proof. apply get_set. Qed.

Lemma record_out_mem key body_str st k :
  mem k (out (record key body_str st)) = String.eqb k key || mem k (out st).
Proof. apply mem_set. Qed.

Lemma record_duplicates_count key body_str st k :
  get_default k 0 (duplicates (record key body_str st))
  = get_default k 0 (duplicates st)
    + (if String.eqb k key && mem k (out st) then 1 else 0).
Proof.
  unfold record; simpl.
  destruct (String.eqb_spec k key) as [->|Hne]; simpl.
  - destruct (mem key (out st)).
    + rewrite get_default_set, String.eqb_refl. reflexivity.
    + now rewrite Nat.add_0_r.
  - rewrite Nat.add_0_r. destruct (mem key (out st)); [|reflexivity].
    rewrite get_default_set.
    now destruct (String.eqb_spec k key).
Qed.

Lemma record_duplicates_mem key body_str st k :
  mem k (duplicates (record key body_str st))
  = mem k (duplicates st) || (String.eqb k key && mem k (out st)).
Proof.
  unfold record; simpl.
  destruct (String.eqb_spec k key) as [->|Hne]; simpl.
  - destruct (mem key (out st)).
    + rewrite mem_set, String.eqb_refl. simpl. now rewrite orb_true_r.
    + now rewrite orb_false_r.
  - rewrite orb_false_r. destruct (mem key (out st)); [|reflexivity].
    rewrite mem_set. now destruct (String.eqb_spec k key).
Qed.

Lemma record_out_NoDup key body_str st :
  NoDup (keys (out st)) -> NoDup (keys (out (record key body_str st))).
Proof. apply keys_set_NoDup. Qed.
End Record.

(** ** The loop *)

Section Loop.
Import PyDict PyDictFacts.
Variable py_str : pyval -> string.
Implicit Types (st : state) (k : string) (items : list (string * pyval)).

Lemma for_items_cons name obj items st :
  for_items py_str ((name, obj) :: items) st
  = c <- contribution py_str obj ;;
    for_items py_str items (apply_contribution c st).
Proof.
  simpl. rewrite loop_body_contribution.
  now destruct (contribution py_str obj).
Qed.

Lemma apply_contribution_out_mem c st k :
  mem k (out (apply_contribution c st))
  = mem k (out st)
    || match c with Some (k', _) => String.eqb k k' | None => false end.
Proof.
  destruct c as [[k' b]|]; unfold apply_contribution.
  - rewrite record_out_mem. apply orb_comm.
  - now rewrite orb_false_r.
Qed.

Lemma apply_contribution_count c st k :
  get_default k 0 (duplicates (apply_contribution c st))
  = get_default k 0 (duplicates st)
    + match c with
      | Some (k', _) => if String.eqb k k' && mem k (out st) then 1 else 0
      | None => 0
      end.
Proof.
  destruct c as [[k' b]|]; unfold apply_contribution.
  - apply record_duplicates_count.
  - now rewrite Nat.add_0_r.
Qed.

Lemma apply_contribution_duplicates_mem c st k :
  mem k (duplicates (apply_contribution c st))
  = mem k (duplicates st)
    || match c with
       | Some (k', _) => String.eqb k k' && mem k (out st)
       | None => false
       end.
Proof.
  destruct c as [[k' b]|]; unfold apply_contribution.
  - apply record_duplicates_mem.
  - now rewrite orb_false_r.
Qed.

Lemma occurrences_cons k name obj items :
  occurrences py_str k ((name, obj) :: items)
  = (if yields py_str k obj then 1 else 0) + occurrences py_str k items.
Proof.
  unfold occurrences. simpl. now destruct (yields py_str k obj).
Qed.

(** The counter of a key grows by one for every entry that contributes the
    key when the key is already in the table: all of them if the key was
    there before the loop, all but the first otherwise. *)
Lemma for_items_counts items : forall st st',
  for_items py_str items st = Ok st' ->
  forall k,
    mem k (out st') = mem k (out st) || (0 <? occurrences py_str k items)%nat /\
    get_default k 0 (duplicates st')
    = get_default k 0 (duplicates st)
      + (occurrences py_str k items - (if mem k (out st) then 0 else 1)) /\
    mem k (duplicates st')
    = mem k (duplicates st)
      || (if mem k (out st) then (0 <? occurrences py_str k items)%nat
          else (1 <? occurrences py_str k items)%nat).
Proof.
  induction items as [|[name obj] items IH]; intros st st' Hrun k.
  - simpl in Hrun. injection Hrun as <-. unfold occurrences; simpl.
    rewrite Nat.add_0_r, !orb_false_r.
    repeat split; trivial. now destruct (mem k (out st)); rewrite orb_false_r.
  - rewrite for_items_cons in Hrun.
    destruct (contribution py_str obj) as [c|] eqn:Hc; [|discriminate].
    simpl in Hrun. destruct (IH _ _ Hrun k) as (Hout & Hcnt & Hdup).
    rewrite apply_contribution_out_mem in Hout, Hcnt, Hdup.
    rewrite apply_contribution_count in Hcnt.
    rewrite apply_contribution_duplicates_mem in Hdup.
    rewrite occurrences_cons.
    assert (Hy : yields py_str k obj
                 = match c with
                   | Some (k', _) => String.eqb k k'
                   | None => false
                   end)
      by (unfold yields; now rewrite Hc).
    rewrite Hy, Hout, Hcnt, Hdup.
    generalize (occurrences py_str k items) as n. intros n.
    destruct c as [[k' b]|];
      [destruct (String.eqb k k')|];
      destruct (mem k (out st)); destruct n as [|[|n]]; simpl;
      rewrite ?orb_false_r, ?orb_true_r; repeat split; trivial; lia.
Qed.

End Loop.

(** The last element of a list with a property is at one place only. *)
Lemma last_split_unique (A : Type) (P : A -> Prop) (l1 l2 r1 r2 : list A) (x1 x2 : A) :
  (l1 ++ x1 :: r1 = l2 ++ x2 :: r2)%list ->
  P x1 -> P x2 ->
  (forall y, In y r1 -> ~ P y) -> (forall y, In y r2 -> ~ P y) ->
  l1 = l2 /\ x1 = x2 /\ r1 = r2.
Proof.
  revert l2. induction l1 as [|a l1 IH]; intros [|b l2] Heq H1 H2 Hr1 Hr2;
    simpl in Heq; injection Heq as Ha Hrest.
  - now subst.
  - exfalso. apply (Hr1 x2); [|assumption].
    rewrite Hrest. apply in_or_app. right. now left.
  - exfalso. apply (Hr2 x1); [|assumption].
    rewrite <- Hrest. apply in_or_app. right. now left.
  - destruct (IH l2 Hrest H1 H2 Hr1 Hr2) as (-> & -> & ->). now subst.
Qed.

Section Table.
Import PyDict PyDictFacts.
Variable py_str : pyval -> string.
Implicit Types (st : state) (k v : string) (items : list (string * pyval)).

Lemma yields_true k obj :
  yields py_str k obj = true <-> exists v, contribution py_str obj = Ok (Some (k, v)).
Proof.
  unfold yields. destruct (contribution py_str obj) as [[[k' b]|]|x].
  - rewrite String.eqb_eq. split.
    + intros ->. now exists b.
    + now intros (v & [= -> _]).
  - split; [discriminate | now intros (v & [=])].
  - split; [discriminate | now intros (v & [=])].
Qed.

Lemma yields_false k obj :
  yields py_str k obj = false <-> forall v, contribution py_str obj <> Ok (Some (k, v)).
Proof.
  rewrite <- not_true_iff_false, yields_true. split.
  - intros H v Hv. apply H. now exists v.
  - intros H (v & Hv). now apply (H v).
Qed.

Lemma occurrences_zero k items :
  occurrences py_str k items = 0 <->
  forall name obj, In (name, obj) items -> yields py_str k obj = false.
Proof.
  induction items as [|[n o] items IH].
  - split; [intros _ ? ? [] | reflexivity].
  - rewrite occurrences_cons. split.
    + intros H name obj [[= -> ->]|Hin].
      * destruct (yields py_str k obj); [discriminate H | reflexivity].
      * apply (proj1 IH) with (name := name); [|assumption].
        destruct (yields py_str k o); [discriminate H | exact H].
    + intros H. rewrite (H n o (or_introl eq_refl)). simpl.
      apply (proj2 IH). intros name obj Hin. apply (H name obj). now right.
Qed.

(** Where a binding of the table after the loop comes from: the last entry
    that contributes its key, or the table before the loop when no entry
    does. *)
Lemma for_items_out items : forall st st',
  for_items py_str items st = Ok st' ->
  forall k v,
    get k (out st') = Some v ->
    (exists pre name obj post,
        items = (pre ++ (name, obj) :: post)%list /\
        contribution py_str obj = Ok (Some (k, v)) /\
        occurrences py_str k post = 0) \/
    (get k (out st) = Some v /\ occurrences py_str k items = 0).
Proof.
  induction items as [|[name obj] items IH]; intros st st' Hrun k v Hget.
  - simpl in Hrun. injection Hrun as <-. now right.
  - rewrite for_items_cons in Hrun.
    destruct (contribution py_str obj) as [c|] eqn:Hc; [|discriminate].
    simpl in Hrun.
    destruct (IH _ _ Hrun k v Hget)
      as [(pre & n & o & post & -> & Ho & Hpost) | [Hst Hnone]].
    + left. now exists ((name, obj) :: pre), n, o, post.
    + rewrite occurrences_cons, Hnone. unfold yields. rewrite Hc.
      destruct c as [[k' b]|]; unfold apply_contribution in Hst.
      * rewrite record_out_get in Hst.
        destruct (String.eqb_spec k k') as [<-|Hne].
        -- injection Hst as ->. left. now exists [], name, obj, items.
        -- right. now split.
      * right. now split.
Qed.

Lemma for_items_NoDup items : forall st st',
  for_items py_str items st = Ok st' ->
  NoDup (keys (out st)) -> NoDup (keys (out st')).
Proof.
  induction items as [|[name obj] items IH]; intros st st' Hrun Hnd.
  - simpl in Hrun. now injection Hrun as <-.
  - rewrite for_items_cons in Hrun.
    destruct (contribution py_str obj) as [c|]; [|discriminate].
    apply (IH _ _ Hrun). destruct c as [[k b]|]; [|assumption].
    now apply record_out_NoDup.
Qed.

(** An entry that raises stops the loop, at that entry or before. *)
Lemma for_items_raises items : forall st name obj x,
  In (name, obj) items ->
  contribution py_str obj = Raise x ->
  exists x', for_items py_str items st = Raise x'.
Proof.
  induction items as [|[n o] items IH]; intros st name obj x Hin Hx; [destruct Hin|].
  rewrite for_items_cons.
  destruct (contribution py_str o) as [c|x0] eqn:Hc; [|now exists x0].
  destruct Hin as [[= -> ->]|Hin]; [congruence|].
  simpl. now apply (IH _ name obj x).
Qed.

End Table.

Lemma for_items_app (py_str : pyval -> string) (pre post : list (string * pyval)) :
  forall st,
    for_items py_str (pre ++ post)%list st
    = st1 <- for_items py_str pre st ;; for_items py_str post st1.
Proof.
  induction pre as [|[n o] pre IH]; intros st; [reflexivity|].
  simpl. destruct (loop_body py_str st o); simpl; [apply IH | reflexivity].
Qed.

(** ** Duplicate keys *)

(** C2: when the key of an entry is already in the output table, the loop
    adds one to the counter of that key (a first collision leaves it at 1, a
    later one adds 1) and the body of the entry replaces the stored one; two
    entries with one key and the bodies first and second, in that order, leave
    the key on second with a counter of 1.  Over a whole table the counter of
    a key is the number of entries with that key less one. *)
Theorem build_counts_collisions (py_str : pyval -> string) :
  (forall (st : state) (obj : pyval) (key body_str : string),
      contribution py_str obj = Ok (Some (key, body_str)) ->
      PyDict.mem key (out st) = true ->
      exists st',
        loop_body py_str st obj = Ok st' /\
        PyDict.get key (out st') = Some body_str /\
        PyDict.get key (duplicates st')
        = Some (PyDict.get_default key 0 (duplicates st) + 1) /\
        (PyDict.get key (duplicates st) = None ->
         PyDict.get key (duplicates st') = Some 1) /\
        (forall n, PyDict.get key (duplicates st) = Some n ->
                   PyDict.get key (duplicates st') = Some (n + 1))) /\
  (forall (n1 n2 : string) (obj1 obj2 : pyval) (key : string),
      contribution py_str obj1 = Ok (Some (key, "first")) ->
      contribution py_str obj2 = Ok (Some (key, "second")) ->
      build py_str (PDict [(n1, obj1); (n2, obj2)])
      = Ok {| out := [(key, "second")]; duplicates := [(key, 1)] |}) /\
  build py_str (PDict [one_entry "a" (PStr "dup") (PStr "first");
                      one_entry "b" (PStr "\dup") (PStr "second")])
  = Ok {| out := [("\<dup>", "second")]; duplicates := [("\<dup>", 1)] |} /\
  (forall (items : list (string * pyval)) (st : state),
      build py_str (PDict items) = Ok st ->
      forall k : string,
        PyDict.get_default k 0 (duplicates st) = occurrences py_str k items - 1 /\
        PyDict.mem k (duplicates st) = (1 <? occurrences py_str k items)%nat).
Proof.
  repeat apply conj.
  - intros st obj key body_str Hc Hmem.
    exists (record key body_str st).
    assert (Hdup : PyDict.get key (duplicates (record key body_str st))
                   = Some (PyDict.get_default key 0 (duplicates st) + 1)).
    { unfold record; simpl. rewrite Hmem. apply PyDictFacts.get_set_eq. }
    repeat apply conj.
    + rewrite loop_body_contribution, Hc. reflexivity.
    + rewrite record_out_get, String.eqb_refl. reflexivity.
    + exact Hdup.
    + intros Hnone. rewrite Hdup. unfold PyDict.get_default. now rewrite Hnone.
    + intros n Hn. rewrite Hdup. unfold PyDict.get_default. now rewrite Hn.
  - intros n1 n2 obj1 obj2 key H1 H2. unfold build. cbn [py_items bind].
    rewrite for_items_cons, H1. cbn [bind].
    rewrite for_items_cons, H2. cbn [bind for_items apply_contribution].
    unfold record, PyDict.mem; simpl. rewrite String.eqb_refl. reflexivity.
  - reflexivity.
  - intros items st Hrun k. unfold build in Hrun. simpl in Hrun.
    destruct (@for_items_counts py_str items init st Hrun k) as (_ & Hcnt & Hdup).
    simpl in Hcnt, Hdup. now split.
Qed.

Lemma build_counts_collisions_witness :
  contribution str_example (PDict [("prefix", PStr "\dup"); ("body", PStr "second")])
  = Ok (Some ("\<dup>", "second")) /\
  PyDict.mem "\<dup>" [("\<dup>", "first")] = true /\
  exists st',
    loop_body str_example {| out := [("\<dup>", "first")]; duplicates := [] |}
              (PDict [("prefix", PStr "\dup"); ("body", PStr "second")]) = Ok st' /\
    PyDict.get "\<dup>" (out st') = Some "second" /\
    PyDict.get "\<dup>" (duplicates st') = Some 1.
Proof.
  split; [reflexivity | split; [reflexivity|]].
  destruct (proj1 (build_counts_collisions str_example)
              {| out := [("\<dup>", "first")]; duplicates := [] |}
              (PDict [("prefix", PStr "\dup"); ("body", PStr "second")])
              "\<dup>" "second" eq_refl eq_refl)
    as (st' & Hrun & Hout & Hdup & _).
  exists st'. repeat split; assumption.
Defined.

(** ** Where the keys of the output come from *)

(** C9: after build has completed, the table has no key twice, and every key
    in it is a non-empty string that normalizeKey made from the first trigger
    of one entry of the input, the last one whose trigger normalises to that
    key, whose flattened body is the value stored; that entry is the only
    place of the input with this property. *)
Theorem build_keys_from_last_entry (py_str : pyval -> string)
        (data : pyval) (st : state) :
  build py_str data = Ok st ->
  NoDup (PyDict.keys (out st)) /\
  forall k v : string,
    In (k, v) (out st) ->
    k <> "" /\
    exists (pre : list (string * pyval)) (name : string)
           (d : list (string * pyval)) (post : list (string * pyval))
           (raw_key : pyval),
      data = PDict (pre ++ (name, PDict d) :: post)%list /\
      selectPrefix (PyDict.get_default "prefix" PNone d) = Some raw_key /\
      normalizeKey raw_key = Ok k /\
      flattenBody py_str (PyDict.get_default "body" PNone d) = Ok v /\
      (forall name' obj' v',
          In (name', obj') post -> contribution py_str obj' <> Ok (Some (k, v'))) /\
      (forall pre' name' obj' post' v',
          data = PDict (pre' ++ (name', obj') :: post')%list ->
          contribution py_str obj' = Ok (Some (k, v')) ->
          (forall name'' obj'' v'',
              In (name'', obj'') post' ->
              contribution py_str obj'' <> Ok (Some (k, v''))) ->
          pre' = pre /\ (name', obj') = (name, PDict d) /\ post' = post).
Proof.
  intros Hrun. destruct data as [| | | | |l|items]; try discriminate Hrun.
  unfold build in Hrun. cbn [py_items bind] in Hrun.
  assert (Hnd : NoDup (PyDict.keys (out st))).
  { apply (@for_items_NoDup py_str items init st Hrun). constructor. }
  split; [exact Hnd|]. intros k v Hin.
  apply PyDictFacts.In_get in Hin; [|exact Hnd].
  destruct (@for_items_out py_str items init st Hrun k v Hin)
    as [(pre & name & obj & post & -> & Hobj & Hpost) | [Hinit _]];
    [|discriminate Hinit].
  destruct (proj1 (@contribution_some py_str obj k v) Hobj)
    as (d & raw_key & -> & Hsel & Hkey & Hbody).
  assert (Hlater : forall name' obj' v',
             In (name', obj') post -> contribution py_str obj' <> Ok (Some (k, v'))).
  { intros name' obj' v' Hin'.
    apply (proj1 (@yields_false py_str k obj')).
    now apply (proj1 (@occurrences_zero py_str k post) Hpost name'). }
  split; [now apply (@normalizeKey_nonempty raw_key)|].
  exists pre, name, d, post, raw_key. repeat apply conj; trivial.
  intros pre' name' obj' post' v' [= Heq] Hobj' Hlater'.
  apply (@last_split_unique _
           (fun e => exists w, contribution py_str (snd e) = Ok (Some (k, w)))
           pre' pre post' post (name', obj') (name, PDict d)).
  - symmetry. exact Heq.
  - now exists v'.
  - now exists v.
  - intros [n o] Hy (w & Hw). now apply (Hlater' n o w).
  - intros [n o] Hy (w & Hw). now apply (Hlater n o w).
Qed.

Lemma build_keys_from_last_entry_witness :
  build str_example
        (PDict [one_entry "a" (PStr "dup") (PStr "first");
                one_entry "b" (PList [PStr "\other"; PStr "x"]) (PStr "mid");
                one_entry "c" (PStr "\dup") (PStr "second")])
  = Ok {| out := [("\<dup>", "second"); ("\<other>", "mid")];
          duplicates := [("\<dup>", 1)] |} /\
  NoDup (PyDict.keys [("\<dup>", "second"); ("\<other>", "mid")]).
Proof.
  split; [reflexivity|].
  exact (proj1 (@build_keys_from_last_entry str_example
    (PDict [one_entry "a" (PStr "dup") (PStr "first");
            one_entry "b" (PList [PStr "\other"; PStr "x"]) (PStr "mid");
            one_entry "c" (PStr "\dup") (PStr "second")])
    {| out := [("\<dup>", "second"); ("\<other>", "mid")];
       duplicates := [("\<dup>", 1)] |}
    eq_refl)).
Defined.

(** ** A first trigger that is not a string *)

Lemma normalizeKey_not_str (x : pyval) :
  is_str x = false -> normalizeKey x = Raise AttributeError.
Proof.
  destruct x; try reflexivity. discriminate.
Qed.

Lemma contribution_not_str (py_str : pyval -> string) (d : list (string * pyval))
      (x : pyval) (l : list pyval) :
  PyDict.get "prefix" d = Some (PList (x :: l)) ->
  is_str x = false ->
  contribution py_str (PDict d) = Raise AttributeError.
Proof.
  intros Hd Hx. unfold contribution, py_get, PyDict.get_default.
  rewrite Hd. cbn [bind selectPrefix py_truthy negb].
  now rewrite (@normalizeKey_not_str x Hx).
Qed.

(** C10: an entry whose prefix is a non-empty list with a first element that
    is not a string is not passed over: the element is selected, normalising
    it raises AttributeError, and the run ends on an exception nobody catches,
    with nothing printed by the script and nothing written, not on the exit
    with a one-line diagnostic. *)
Theorem nonstring_trigger_aborts (py_str : pyval -> string) :
  (forall (st : state) (d : list (string * pyval)) (x : pyval) (l : list pyval),
      PyDict.get "prefix" d = Some (PList (x :: l)) ->
      is_str x = false ->
      selectPrefix (PList (x :: l)) = Some x /\
      normalizeKey x = Raise AttributeError /\
      loop_body py_str st (PDict d) = Raise AttributeError) /\
  (forall (e : env) (items : list (string * pyval)) (name : string)
          (d : list (string * pyval)) (x : pyval) (l : list pyval),
      path_exists e (input_path e) = true ->
      json_load e (input_path e) = Parsed (PDict items) ->
      In (name, PDict d) items ->
      PyDict.get "prefix" d = Some (PList (x :: l)) ->
      is_str x = false ->
      exists exc, main py_str e = ([], Uncaught exc)) /\
  (forall (e : env) (pre post : list (string * pyval)) (name : string)
          (d : list (string * pyval)) (x : pyval) (l : list pyval) (st : state),
      path_exists e (input_path e) = true ->
      json_load e (input_path e) = Parsed (PDict (pre ++ (name, PDict d) :: post)%list) ->
      for_items py_str pre init = Ok st ->
      PyDict.get "prefix" d = Some (PList (x :: l)) ->
      is_str x = false ->
      main py_str e = ([], Uncaught AttributeError)).
Proof.
  repeat apply conj.
  - intros st d x l Hd Hx. repeat apply conj.
    + reflexivity.
    + now apply normalizeKey_not_str.
    + rewrite loop_body_contribution.
      now rewrite (@contribution_not_str py_str d x l Hd Hx).
  - intros e items name d x l Hex Hload Hin Hd Hx.
    destruct (@for_items_raises py_str items init name (PDict d) AttributeError Hin
                (@contribution_not_str py_str d x l Hd Hx)) as (exc & Hexc).
    exists exc. unfold main. rewrite Hex, Hload. cbn [negb].
    unfold build. cbn [py_items bind]. now rewrite Hexc.
  - intros e pre post name d x l st Hex Hload Hpre Hd Hx.
    unfold main. rewrite Hex, Hload. cbn [negb].
    unfold build. cbn [py_items bind].
    rewrite for_items_app, Hpre. cbn [bind].
    rewrite for_items_cons, (@contribution_not_str py_str d x l Hd Hx).
    reflexivity.
Qed.

Lemma nonstring_trigger_aborts_witness :
  main str_example
       (env_of ["extract_snippets.py"; "in.json"]
          [("in.json",
            Parsed (PDict [one_entry "ok" (PStr "\zero") (PStr "0");
                           one_entry "bad" (PList [PInt 5; PStr "\five"]) (PStr "5")]))])
  = ([], Uncaught AttributeError).
Proof.
  exact (proj2 (proj2 (nonstring_trigger_aborts str_example))
    (env_of ["extract_snippets.py"; "in.json"]
       [("in.json",
         Parsed (PDict [one_entry "ok" (PStr "\zero") (PStr "0");
                        one_entry "bad" (PList [PInt 5; PStr "\five"]) (PStr "5")]))])
    [one_entry "ok" (PStr "\zero") (PStr "0")] []
    "bad" [("prefix", PList [PInt 5; PStr "\five"]); ("body", PStr "5")]
    (PInt 5) [PStr "\five"]
    {| out := [("\<zero>", "0")]; duplicates := [] |}
    eq_refl eq_refl eq_refl eq_refl eq_refl).
Defined.

(** ** Load failures *)



(** C3, as the code has it: when the content of the input file is not
    well-formed JSON, so that the parser raises its decode error, the run
    prints one line that names the path and carries the message of the parser,
    and exits with status 1; no file is written. *)
Theorem main_parse_error (py_str : pyval -> string) (e : env) (msg : string) :
  path_exists e (input_path e) = true ->
  json_load e (input_path e) = JSONDecodeError msg ->
  main py_str e
  = ([EvPrint ("Error: Failed to parse JSON from '" ++ input_path e ++ "': " ++ msg)],
     SysExit 1) /\
  (forall (p : string) (t : list (string * string)),
      ~ In (EvWrite p t) (fst (main py_str e))).
Proof.
  intros Hex Hload. unfold main. rewrite Hex, Hload. cbn [negb fst].
  split; [reflexivity|].
  intros p t [H|[]]. discriminate H.
Qed.

Lemma main_parse_error_witness :
  main str_example
       (env_of ["extract_snippets.py"; "bad.json"]
          [("bad.json", JSONDecodeError "Expecting value: line 1 column 1 (char 0)")])
  = ([EvPrint "Error: Failed to parse JSON from 'bad.json': Expecting value: line 1 column 1 (char 0)"],
     SysExit 1).
Proof.
  exact (proj1 (@main_parse_error str_example
    (env_of ["extract_snippets.py"; "bad.json"]
       [("bad.json", JSONDecodeError "Expecting value: line 1 column 1 (char 0)")])
    "Expecting value: line 1 column 1 (char 0)" eq_refl eq_refl)).
Defined.

(** Content that is well-formed JSON but not a mapping of objects is not a
    parse error for the script: a top-level array, and a mapping with a value
    that is a number, both load, and the run ends on an AttributeError nobody
    catches: the script prints no diagnostic and names no path. *)
Lemma main_not_a_mapping_of_objects :
  main str_example
       (env_of ["extract_snippets.py"; "array.json"]
          [("array.json", Parsed (PList []))])
  = ([], Uncaught AttributeError) /\
  main str_example
       (env_of ["extract_snippets.py"; "numbers.json"]
          [("numbers.json", Parsed (PDict [("a", PInt 1)]))])
  = ([], Uncaught AttributeError) /\
  (forall msg : string,
      main str_example
           (env_of ["extract_snippets.py"; "array.json"]
              [("array.json", Parsed (PList []))])
      <> ([EvPrint ("Error: Failed to parse JSON from 'array.json': " ++ msg)],
          SysExit 1)).
Proof.
  repeat split; try reflexivity.
  intros msg H. discriminate H.
Qed.

(** The end-to-end scenario of the specification: one entry, one line. *)
Example main_zero :
  main str_example
       (env_of ["extract_snippets.py"; "snippets.json"; "out.json"]
          [("snippets.json",
            Parsed (PDict [("zero", PDict [("prefix", PStr "\zero");
                                           ("body", PList [PStr "0"])])]))])
  = ([EvWrite "out.json" [("\<zero>", "0")];
      EvPrint "Successfully extracted 1 snippets to 'out.json'."],
     Returned).
Proof. reflexivity. Qed.

(** ** Which triggers share a key *)

Lemma append_cancel_r (a b c : string) : a ++ c = b ++ c -> a = b.
Proof.
  assert (Hlen : forall x y : string,
             String.length (x ++ y) = String.length x + String.length y).
  { induction x as [|ch x IH]; intros y; simpl; [reflexivity | now rewrite IH]. }
  revert b. induction a as [|x a IH]; intros [|y b] H; simpl in H.
  - reflexivity.
  - apply (f_equal String.length) in H. simpl in H. rewrite Hlen in H. lia.
  - apply (f_equal String.length) in H. simpl in H. rewrite Hlen in H. lia.
  - injection H as -> H. now rewrite (IH b H).
Qed.

Lemma wrap_inj (x y : string) : "\<" ++ x ++ ">" = "\<" ++ y ++ ">" -> x = y.
Proof.
  simpl. intros [= H]. now apply append_cancel_r in H.
Qed.

Lemma bracketed_backslash (rest : string) :
  bracketed (String "\"%char rest) = "\<" ++ rest ++ ">".
Proof. reflexivity. Qed.

Lemma bracketed_plain (s : string) :
  startswith s "\" = false -> bracketed s = "\<" ++ s ++ ">".
Proof.
  destruct s as [|c rest]; [reflexivity|].
  rewrite startswith_backslash. unfold bracketed. now intros ->.
Qed.

Lemma startswith_backslash_inv (s : string) :
  startswith s "\" = true -> exists rest, s = String "\"%char rest.
Proof.
  destruct s as [|c rest]; [discriminate|].
  rewrite startswith_backslash. intros H. apply Ascii.eqb_eq in H.
  subst c. now exists rest.
Qed.

(** X1: two string triggers get the same key exactly when they are equal or
    one is the other with one backslash put in front of it, the other not
    starting with a backslash itself. *)
Theorem normalizeKey_same_key (a b : string) :
  normalizeKey (PStr a) = normalizeKey (PStr b) <->
  a = b \/
  (a = String "\"%char b /\ startswith b "\" = false) \/
  (b = String "\"%char a /\ startswith a "\" = false).
Proof.
  rewrite !normalizeKey_bracketed. split.
  - intros [= H].
    destruct (startswith a "\") eqn:Ha; destruct (startswith b "\") eqn:Hb.
    + apply startswith_backslash_inv in Ha, Hb.
      destruct Ha as (a' & ->), Hb as (b' & ->).
      rewrite !bracketed_backslash in H. apply wrap_inj in H. left. now subst.
    + apply startswith_backslash_inv in Ha. destruct Ha as (a' & ->).
      rewrite bracketed_backslash, (bracketed_plain b Hb) in H.
      apply wrap_inj in H. right. left. now subst.
    + apply startswith_backslash_inv in Hb. destruct Hb as (b' & ->).
      rewrite bracketed_backslash, (bracketed_plain a Ha) in H.
      apply wrap_inj in H. right. right. now subst.
    + rewrite (bracketed_plain a Ha), (bracketed_plain b Hb) in H.
      apply wrap_inj in H. now left.
  - intros [->|[[-> Hb]|[-> Ha]]].
    + reflexivity.
    + now rewrite bracketed_backslash, (bracketed_plain b Hb).
    + now rewrite bracketed_backslash, (bracketed_plain a Ha).
Qed.

Lemma normalizeKey_same_key_witness :
  normalizeKey (PStr "\alpha") = normalizeKey (PStr "alpha").
Proof.
  apply (proj2 (normalizeKey_same_key "\alpha" "alpha")).
  right. left. split; reflexivity.
Defined.

Lemma normalizeKey_form (raw_key : pyval) (k : string) :
  normalizeKey raw_key = Ok k ->
  exists t, k = "\<" ++ t ++ ">" /\ 3 <= String.length k.
Proof.
  destruct raw_key; try discriminate. simpl.
  assert (Hlen : forall t : string, 1 <= String.length (t ++ ">")).
  { induction t; simpl; lia. }
  destruct (startswith s "\"); intros [= <-].
  - exists (slice_from 1 s). split; [reflexivity|].
    simpl. specialize (Hlen (slice_from 1 s)). lia.
  - exists s. split; [reflexivity|].
    simpl. specialize (Hlen s). lia.
Qed.

(** ** More on insertion-ordered dictionaries *)

Module PyDictOrder.
Import PyDict PyDictFacts.

Section Order.
Variable V : Type.
Implicit Types (k : string) (v : V) (d : list (string * V)).

Lemma mem_keys k d : mem k d = true <-> In k (keys d).
Proof.
  unfold mem. destruct (get k d) as [v|] eqn:Hget.
  - split; [intros _ | reflexivity].
    change k with (fst (k, v)). apply in_map. now apply get_In.
  - split; [discriminate|]. intros Hin. now apply get_none_keys in Hget.
Qed.

Lemma keys_set k v d :
  keys (set k v d) = if mem k d then keys d else (keys d ++ [k])%list.
Proof.
  unfold mem. induction d as [|[k' v'] d IH]; simpl; [reflexivity|].
  destruct (String.eqb_spec k k') as [->|Hne]; simpl; [reflexivity|].
  rewrite IH. now destruct (get k d).
Qed.

Lemma length_set k v d :
  List.length (set k v d) = if mem k d then List.length d else S (List.length d).
Proof.
  rewrite <- !(length_map fst). fold (keys (set k v d)). fold (keys d).
  rewrite keys_set. destruct (mem k d); [reflexivity|].
  rewrite length_app. simpl. lia.
Qed.
End Order.

Lemma total_bump (k : string) (d : list (string * nat)) :
  total (set k (get_default k 0 d + 1) d) = S (total d).
Proof.
  unfold total, get_default. induction d as [|[k' n] d IH]; simpl; [reflexivity|].
  destruct (String.eqb_spec k k') as [->|Hne]; simpl.
  - lia.
  - rewrite IH. lia.
Qed.

End PyDictOrder.

(** ** The table as a whole *)

Section Whole.
Import PyDict PyDictFacts PyDictOrder.
Variable py_str : pyval -> string.
Implicit Types (st : state) (k v : string) (items : list (string * pyval)).

Lemma contributed_keys_cons name obj items :
  contributed_keys py_str ((name, obj) :: items)
  = (match contribution py_str obj with
     | Ok (Some (k, _)) => [k]
     | _ => []
     end ++ contributed_keys py_str items)%list.
Proof. reflexivity. Qed.

Lemma contributed_keys_In k items :
  In k (contributed_keys py_str items) <->
  exists name obj v,
    In (name, obj) items /\ contribution py_str obj = Ok (Some (k, v)).
Proof.
  unfold contributed_keys. rewrite in_flat_map. split.
  - intros ([name obj] & Hin & Hk). simpl in Hk.
    destruct (contribution py_str obj) as [[[k' b]|]|] eqn:Hc; try destruct Hk.
    + subst k'. now exists name, obj, b.
    + destruct H.
  - intros (name & obj & v & Hin & Hc). exists (name, obj). split; [assumption|].
    simpl. rewrite Hc. now left.
Qed.

Lemma occurrences_pos k items :
  (0 <? occurrences py_str k items)%nat = true <-> In k (contributed_keys py_str items).
Proof.
  rewrite contributed_keys_In, Nat.ltb_lt. split.
  - intros Hpos.
    destruct (occurrences py_str k items) as [|n] eqn:Hocc; [lia|].
    unfold occurrences in Hocc.
    destruct (filter (fun e => yields py_str k (snd e)) items) as [|[name obj] l] eqn:Hf;
      [discriminate|].
    assert (Hin : In (name, obj) (filter (fun e => yields py_str k (snd e)) items))
      by (rewrite Hf; now left).
    apply filter_In in Hin. destruct Hin as [Hin Hy]. simpl in Hy.
    apply yields_true in Hy. destruct Hy as (v & Hv).
    now exists name, obj, v.
  - intros (name & obj & v & Hin & Hc).
    destruct (occurrences py_str k items) as [|n] eqn:Hocc; [|lia].
    exfalso.
    pose proof (proj1 (occurrences_zero py_str k items) Hocc name obj Hin) as Hy.
    apply yields_false with (v := v) in Hy. contradiction.
Qed.

(** The keys of the table after a whole build are the contributed keys. *)
Lemma for_items_keys items st :
  for_items py_str items init = Ok st ->
  forall k, In k (keys (out st)) <-> In k (contributed_keys py_str items).
Proof.
  intros Hrun k.
  destruct (@for_items_counts py_str items init st Hrun k) as (Hout & _ & _).
  simpl in Hout. rewrite <- mem_keys, Hout. apply occurrences_pos.
Qed.

(** Every turn that is not passed over makes the table one longer or a
    counter one larger. *)
Lemma for_items_balance items : forall st st',
  for_items py_str items st = Ok st' ->
  List.length (out st') + total (duplicates st')
  = List.length (out st) + total (duplicates st)
    + List.length (contributed_keys py_str items).
Proof.
  induction items as [|[name obj] items IH]; intros st st' Hrun.
  - simpl in Hrun. injection Hrun as <-. simpl. lia.
  - rewrite for_items_cons in Hrun.
    destruct (contribution py_str obj) as [c|] eqn:Hc; [|discriminate].
    cbn [bind] in Hrun. rewrite (IH _ _ Hrun), contributed_keys_cons, Hc.
    destruct c as [[key b]|]; cbn [apply_contribution]; [|simpl; lia].
    rewrite length_app. unfold record. cbn [out duplicates].
    rewrite length_set. destruct (mem key (out st)).
    + rewrite total_bump. simpl. lia.
    + simpl. lia.
Qed.

(** The loop only appends to the lists of keys. *)
Lemma for_items_extends items : forall st st',
  for_items py_str items st = Ok st' ->
  (exists added, keys (out st') = (keys (out st) ++ added)%list) /\
  (exists added, keys (duplicates st') = (keys (duplicates st) ++ added)%list).
Proof.
  induction items as [|[name obj] items IH]; intros st st' Hrun.
  - simpl in Hrun. injection Hrun as <-.
    split; exists []; now rewrite app_nil_r.
  - rewrite for_items_cons in Hrun.
    destruct (contribution py_str obj) as [c|] eqn:Hc; [|discriminate].
    cbn [bind] in Hrun. destruct (IH _ _ Hrun) as [(a1 & H1) (a2 & H2)].
    destruct c as [[key b]|]; cbn [apply_contribution] in H1, H2;
      [|split; [now exists a1 | now exists a2]].
    unfold record in H1, H2. cbn [out duplicates] in H1, H2.
    rewrite keys_set in H1. split.
    + destruct (mem key (out st)); [now exists a1|].
      exists ([key] ++ a1)%list. now rewrite H1, <- app_assoc.
    + destruct (mem key (out st)); [|now exists a2].
      rewrite keys_set in H2.
      destruct (mem key (duplicates st)); [now exists a2|].
      exists ([key] ++ a2)%list. now rewrite H2, <- app_assoc.
Qed.

Lemma for_items_duplicates_NoDup items : forall st st',
  for_items py_str items st = Ok st' ->
  NoDup (keys (duplicates st)) -> NoDup (keys (duplicates st')).
Proof.
  induction items as [|[name obj] items IH]; intros st st' Hrun Hnd.
  - simpl in Hrun. now injection Hrun as <-.
  - rewrite for_items_cons in Hrun.
    destruct (contribution py_str obj) as [c|]; [|discriminate].
    apply (IH _ _ Hrun). destruct c as [[k b]|]; [|assumption].
    unfold apply_contribution, record. cbn [duplicates].
    destruct (mem k (out st)); [|assumption].
    now apply keys_set_NoDup.
Qed.

End Whole.

(** X2: after a build that completes, the output table holds a key exactly
    when some entry of the input contributes it: no entry that selects a
    trigger is lost. *)
Theorem build_keeps_every_key (py_str : pyval -> string)
        (items : list (string * pyval)) (st : state) :
  build py_str (PDict items) = Ok st ->
  forall k : string,
    In k (PyDict.keys (out st)) <->
    exists (name : string) (obj : pyval) (v : string),
      In (name, obj) items /\ contribution py_str obj = Ok (Some (k, v)).
Proof.
  intros Hrun k. unfold build in Hrun. cbn [py_items bind] in Hrun.
  rewrite (@for_items_keys py_str items st Hrun k).
  apply contributed_keys_In.
Qed.

Lemma build_keeps_every_key_witness :
  In "\<a>" (PyDict.keys [("\<a>", "2"); ("\<b>", "1")]) <->
  exists (name : string) (obj : pyval) (v : string),
    In (name, obj) [one_entry "x" (PStr "a") (PStr "0");
                    one_entry "y" (PStr "\b") (PStr "1");
                    one_entry "z" (PStr "\a") (PStr "2")] /\
    contribution str_example obj = Ok (Some ("\<a>", v)).
Proof.
  exact (@build_keeps_every_key str_example
    [one_entry "x" (PStr "a") (PStr "0");
     one_entry "y" (PStr "\b") (PStr "1");
     one_entry "z" (PStr "\a") (PStr "2")]
    {| out := [("\<a>", "2"); ("\<b>", "1")]; duplicates := [("\<a>", 1)] |}
    eq_refl "\<a>").
Defined.

(** X3: after a build that completes, the size of the output table and the
    sum of the duplicate counters add up to the number of entries that were
    not passed over: each of them made a key or raised a counter by one. *)
Theorem build_accounts_for_entries (py_str : pyval -> string)
        (items : list (string * pyval)) (st : state) :
  build py_str (PDict items) = Ok st ->
  List.length (out st) + total (duplicates st)
  = List.length (contributed_keys py_str items).
Proof.
  intros Hrun. unfold build in Hrun. cbn [py_items bind] in Hrun.
  now rewrite (@for_items_balance py_str items init st Hrun).
Qed.

Lemma build_accounts_for_entries_witness :
  List.length [("\<a>", "3"); ("\<b>", "1")] + total [("\<a>", 2)]
  = List.length
      (contributed_keys str_example
         [one_entry "w" (PStr "a") (PStr "0");
          one_entry "x" (PStr "\b") (PStr "1");
          one_entry "skipped" (PStr "") (PStr "no");
          one_entry "y" (PStr "\a") (PStr "2");
          one_entry "z" (PList [PStr "a"; PStr "b"]) (PStr "3")]).
Proof.
  exact (@build_accounts_for_entries str_example
    [one_entry "w" (PStr "a") (PStr "0");
     one_entry "x" (PStr "\b") (PStr "1");
     one_entry "skipped" (PStr "") (PStr "no");
     one_entry "y" (PStr "\a") (PStr "2");
     one_entry "z" (PList [PStr "a"; PStr "b"]) (PStr "3")]
    {| out := [("\<a>", "3"); ("\<b>", "1")]; duplicates := [("\<a>", 2)] |}
    eq_refl).
Defined.

(** X4: after a build that completes, the dictionary of counters has no key
    twice, and each of its keys is a key of the output table with a counter
    of at least 1, one less than the number of entries with that key. *)
Theorem build_counters_invariant (py_str : pyval -> string)
        (items : list (string * pyval)) (st : state) :
  build py_str (PDict items) = Ok st ->
  NoDup (PyDict.keys (duplicates st)) /\
  forall (k : string) (n : nat),
    In (k, n) (duplicates st) ->
    1 <= n /\
    In k (PyDict.keys (out st)) /\
    occurrences py_str k items = S n.
Proof.
  intros Hrun. unfold build in Hrun. cbn [py_items bind] in Hrun.
  assert (Hnd : NoDup (PyDict.keys (duplicates st))).
  { apply (@for_items_duplicates_NoDup py_str items init st Hrun). constructor. }
  split; [exact Hnd|]. intros k n Hin.
  apply PyDictFacts.In_get in Hin; [|exact Hnd].
  destruct (@for_items_counts py_str items init st Hrun k) as (Hout & Hcnt & Hdup).
  cbn [init out duplicates PyDict.mem PyDict.get PyDict.get_default orb] in Hout, Hcnt, Hdup.
  unfold PyDict.get_default in Hcnt. unfold PyDict.mem in Hdup at 1.
  rewrite Hin in Hcnt, Hdup. symmetry in Hdup. apply Nat.ltb_lt in Hdup.
  repeat split; try lia.
  apply PyDictOrder.mem_keys. rewrite Hout. apply Nat.ltb_lt. lia.
Qed.

Lemma build_counters_invariant_witness :
  NoDup (PyDict.keys [("\<a>", 2)]).
Proof.
  exact (proj1 (@build_counters_invariant str_example
    [one_entry "w" (PStr "a") (PStr "0");
     one_entry "x" (PStr "\b") (PStr "1");
     one_entry "y" (PStr "\a") (PStr "2");
     one_entry "z" (PList [PStr "a"; PStr "b"]) (PStr "3")]
    {| out := [("\<a>", "3"); ("\<b>", "1")]; duplicates := [("\<a>", 2)] |}
    eq_refl)).
Defined.

(** X5: the loop only appends to the key lists of both dictionaries: the keys
    present before it keep their places, so overwriting the body of a key
    never moves the key in the written file. *)
Theorem loop_keeps_key_order (py_str : pyval -> string)
        (items : list (string * pyval)) (st st' : state) :
  for_items py_str items st = Ok st' ->
  (exists added : list string,
      PyDict.keys (out st') = (PyDict.keys (out st) ++ added)%list) /\
  (exists added : list string,
      PyDict.keys (duplicates st') = (PyDict.keys (duplicates st) ++ added)%list).
Proof.
  apply for_items_extends.
Qed.

Lemma loop_keeps_key_order_witness :
  exists added : list string,
    PyDict.keys [("\<a>", "new"); ("\<b>", "1"); ("\<c>", "2")]
    = (PyDict.keys [("\<a>", "old"); ("\<b>", "1")] ++ added)%list.
Proof.
  exact (proj1 (@loop_keeps_key_order str_example
    [one_entry "x" (PStr "\c") (PStr "2"); one_entry "y" (PStr "a") (PStr "new")]
    {| out := [("\<a>", "old"); ("\<b>", "1")]; duplicates := [] |}
    {| out := [("\<a>", "new"); ("\<b>", "1"); ("\<c>", "2")];
       duplicates := [("\<a>", 1)] |}
    eq_refl)).
Defined.

(** X6: every key of the output table after a build that completes is a
    backslash, an opening angle bracket, some text and a closing angle
    bracket, at least three characters in all. *)
Theorem build_keys_bracketed (py_str : pyval -> string) (data : pyval) (st : state) :
  build py_str data = Ok st ->
  forall k : string,
    In k (PyDict.keys (out st)) ->
    exists t : string, k = "\<" ++ t ++ ">" /\ 3 <= String.length k.
Proof.
  intros Hrun k Hin. destruct data as [| | | | |l|items]; try discriminate Hrun.
  unfold build in Hrun. cbn [py_items bind] in Hrun.
  apply (@for_items_keys py_str items st Hrun k) in Hin.
  apply contributed_keys_In in Hin. destruct Hin as (name & obj & v & _ & Hc).
  apply contribution_some in Hc. destruct Hc as (d & raw_key & _ & _ & Hkey & _).
  now apply (@normalizeKey_form raw_key).
Qed.

Lemma build_keys_bracketed_witness :
  exists t : string, "\<>" = "\<" ++ t ++ ">" /\ 3 <= String.length "\<>".
Proof.
  exact (@build_keys_bracketed str_example
    (PDict [one_entry "lone" (PStr "\") (PStr "b")])
    {| out := [("\<>", "b")]; duplicates := [] |}
    eq_refl "\<>" (or_introl eq_refl)).
Defined.

(** ** When the loop completes *)

Lemma str_items_all_str (l : list pyval) :
  forallb is_str l = true -> exists ss, str_items l = Ok ss.
Proof.
  induction l as [|x l IH]; simpl; [now exists []|].
  destruct x; try discriminate. simpl. intros Hl.
  destruct (IH Hl) as (ss & ->). now exists (s :: ss).
Qed.

Lemma flattenBody_text_or_lines (py_str : pyval -> string) (body : pyval) :
  text_or_lines body = true -> exists b, flattenBody py_str body = Ok b.
Proof.
  destruct body; try discriminate; simpl; intros H.
  - now exists "".
  - now exists s.
  - unfold str_join. destruct (str_items_all_str l H) as (ss & ->).
    now exists (String.concat LF ss).
Qed.

Lemma well_formed_entry_ok (py_str : pyval -> string) (obj : pyval) :
  well_formed_entry obj = true -> entry_ok py_str obj = true.
Proof.
  destruct obj; try discriminate. unfold well_formed_entry, entry_ok, contribution.
  intros H. apply andb_prop in H. destruct H as [Hp Hb].
  cbn [py_get bind].
  destruct (flattenBody_text_or_lines py_str _ Hb) as (b & Hflat).
  destruct (PyDict.get_default "prefix" PNone d) as [| | | |s|l|]; try discriminate Hp.
  - reflexivity.
  - unfold selectPrefix. destruct (negb (py_truthy (PStr s))); [reflexivity|].
    rewrite normalizeKey_bracketed. cbn [bind]. now rewrite Hflat.
  - destruct l as [|x l]; [reflexivity|]. simpl in Hp.
    destruct x; try discriminate Hp.
    cbn [selectPrefix py_truthy negb]. rewrite normalizeKey_bracketed.
    cbn [bind]. now rewrite Hflat.
Qed.

Lemma for_items_all_ok (py_str : pyval -> string) (items : list (string * pyval)) :
  forall st,
    (exists st', for_items py_str items st = Ok st') <->
    forallb (fun e => entry_ok py_str (snd e)) items = true.
Proof.
  induction items as [|[name obj] items IH]; intros st.
  - simpl. split; [reflexivity | intros _; now exists st].
  - rewrite for_items_cons. cbn [forallb snd]. unfold entry_ok at 1.
    destruct (contribution py_str obj) as [c|x]; cbn [bind andb].
    + apply IH.
    + split; [intros (st' & H); discriminate H | discriminate].
Qed.

(** X7: the loop completes exactly when no entry raises on its own, whatever
    the entries before it; it does so on every table whose entries are objects
    with a prefix and a body that are each missing, a string or a list of
    strings; otherwise the exception is that of the first entry that raises. *)
Theorem build_completes_iff (py_str : pyval -> string)
        (items : list (string * pyval)) :
  ((exists st, build py_str (PDict items) = Ok st) <->
   forallb (fun e => entry_ok py_str (snd e)) items = true) /\
  (forallb (fun e => well_formed_entry (snd e)) items = true ->
   exists st, build py_str (PDict items) = Ok st) /\
  (forall (pre post : list (string * pyval)) (name : string) (obj : pyval) (x : exn),
      items = (pre ++ (name, obj) :: post)%list ->
      forallb (fun e => entry_ok py_str (snd e)) pre = true ->
      contribution py_str obj = Raise x ->
      build py_str (PDict items) = Raise x).
Proof.
  unfold build. cbn [py_items bind]. repeat apply conj.
  - apply for_items_all_ok.
  - apply for_items_all_ok.
  - intros Hwf. apply for_items_all_ok.
    rewrite forallb_forall in Hwf |- *. intros e He.
    apply well_formed_entry_ok. now apply Hwf.
  - intros pre post name obj x -> Hpre Hx.
    apply (for_items_all_ok py_str pre init) in Hpre. destruct Hpre as (st1 & Hst1).
    rewrite for_items_app, Hst1. cbn [bind].
    now rewrite for_items_cons, Hx.
Qed.

Lemma build_completes_iff_witness :
  exists st,
    build str_example
          (PDict [one_entry "a" (PList [PStr "\alpha"; PStr "\beta"])
                            (PList [PStr "l1"; PStr "l2"]);
                  ("b", PDict [("prefix", PStr "x")]);
                  ("c", PDict [("body", PStr "no trigger")])])
    = Ok st.
Proof.
  exact (proj1 (proj2 (@build_completes_iff str_example
    [one_entry "a" (PList [PStr "\alpha"; PStr "\beta"])
               (PList [PStr "l1"; PStr "l2"]);
     ("b", PDict [("prefix", PStr "x")]);
     ("c", PDict [("body", PStr "no trigger")])])) eq_refl).
Defined.


(** ** Runs that end on an exception *)

Lemma main_build_raises (py_str : pyval -> string) (e : env) (data : pyval) (x : exn) :
  path_exists e (input_path e) = true ->
  json_load e (input_path e) = Parsed data ->
  build py_str data = Raise x ->
  main py_str e = ([], Uncaught x).
Proof.
  intros Hex Hload Hx. unfold main. now rewrite Hex, Hload, Hx.
Qed.

(** X9: an entry that selects a string trigger but whose body is a list with
    an item that is not a string makes the join raise TypeError; when the
    entries before it went through, the run ends on that exception, with
    nothing printed by the script and nothing written. *)
Theorem body_not_lines_aborts (py_str : pyval -> string) (e : env)
        (pre post : list (string * pyval)) (name : string)
        (d : list (string * pyval)) (s : string)
        (ls : list string) (v : pyval) (l : list pyval) (st : state) :
  path_exists e (input_path e) = true ->
  json_load e (input_path e) = Parsed (PDict (pre ++ (name, PDict d) :: post)%list) ->
  for_items py_str pre init = Ok st ->
  selectPrefix (PyDict.get_default "prefix" PNone d) = Some (PStr s) ->
  PyDict.get "body" d = Some (PList (map PStr ls ++ v :: l)%list) ->
  is_str v = false ->
  loop_body py_str st (PDict d) = Raise TypeError /\
  main py_str e = ([], Uncaught TypeError).
Proof.
  intros Hex Hload Hpre Hsel Hbody Hv.
  assert (Hc : contribution py_str (PDict d) = Raise TypeError).
  { unfold contribution. cbn [py_get bind]. rewrite Hsel, normalizeKey_bracketed.
    cbn [bind]. unfold PyDict.get_default. rewrite Hbody.
    rewrite flattenBody_not_lines; [reflexivity|].
    intros s' ->. discriminate Hv. }
  split.
  - now rewrite loop_body_contribution, Hc.
  - apply (main_build_raises py_str e Hex Hload).
    unfold build. cbn [py_items bind]. rewrite for_items_app, Hpre. cbn [bind].
    now rewrite for_items_cons, Hc.
Qed.

Lemma body_not_lines_aborts_witness :
  main str_example
       (env_of ["extract_snippets.py"; "in.json"]
          [("in.json",
            Parsed (PDict [one_entry "ok" (PStr "\zero") (PStr "0");
                           one_entry "bad" (PStr "\one")
                                     (PList [PStr "line"; PInt 1])]))])
  = ([], Uncaught TypeError).
Proof.
  exact (proj2 (@body_not_lines_aborts str_example
    (env_of ["extract_snippets.py"; "in.json"]
       [("in.json",
         Parsed (PDict [one_entry "ok" (PStr "\zero") (PStr "0");
                        one_entry "bad" (PStr "\one")
                                  (PList [PStr "line"; PInt 1])]))])
    [one_entry "ok" (PStr "\zero") (PStr "0")] []
    "bad" [("prefix", PStr "\one"); ("body", PList [PStr "line"; PInt 1])]
    "\one" ["line"] (PInt 1) []
    {| out := [("\<zero>", "0")]; duplicates := [] |}
    eq_refl eq_refl eq_refl eq_refl eq_refl eq_refl)).
Defined.

(** X10: a file that parses to anything but an object, or to an object with a
    value that is not an object after entries that went through, ends the run
    on an AttributeError nobody catches, with nothing printed by the script
    and nothing written. *)
Theorem not_objects_aborts (py_str : pyval -> string) (e : env) :
  path_exists e (input_path e) = true ->
  (forall data : pyval,
      json_load e (input_path e) = Parsed data ->
      is_dict data = false ->
      main py_str e = ([], Uncaught AttributeError)) /\
  (forall (pre post : list (string * pyval)) (name : string) (obj : pyval),
      json_load e (input_path e) = Parsed (PDict (pre ++ (name, obj) :: post)%list) ->
      forallb (fun en => entry_ok py_str (snd en)) pre = true ->
      is_dict obj = false ->
      main py_str e = ([], Uncaught AttributeError)).
Proof.
  intros Hex. split.
  - intros data Hload Hdata. apply (main_build_raises py_str e Hex Hload).
    destruct data; try reflexivity. discriminate Hdata.
  - intros pre post name obj Hload Hpre Hobj.
    apply (main_build_raises py_str e Hex Hload).
    apply (for_items_all_ok py_str pre init) in Hpre. destruct Hpre as (st1 & Hst1).
    unfold build. cbn [py_items bind]. rewrite for_items_app, Hst1. cbn [bind].
    rewrite for_items_cons.
    destruct obj; try reflexivity. discriminate Hobj.
Qed.

Lemma not_objects_aborts_witness :
  main str_example
       (env_of ["extract_snippets.py"; "text.json"]
          [("text.json", Parsed (PStr "just a string"))])
  = ([], Uncaught AttributeError).
Proof.
  exact (proj1 (@not_objects_aborts str_example
    (env_of ["extract_snippets.py"; "text.json"]
       [("text.json", Parsed (PStr "just a string"))])
    eq_refl) (PStr "just a string") eq_refl eq_refl).
Defined.

(** ** The write stage and the shape of a run *)

(** X11: when the table was built and writing the output raises IOError, the
    run prints one line that names the output path and carries the message of
    the error, and exits with status 1; the success line is not printed and
    no write is recorded. *)
Theorem main_write_failure (py_str : pyval -> string) (e : env) (data : pyval)
        (st : state) (msg : string) :
  path_exists e (input_path e) = true ->
  json_load e (input_path e) = Parsed data ->
  build py_str data = Ok st ->
  write_error e (output_path e) = Some msg ->
  main py_str e
  = ([EvPrint ("Error: Failed to write to '" ++ output_path e ++ "': " ++ msg)],
     SysExit 1).
Proof.
  intros Hex Hload Hbuild Hwrite. unfold main, save.
  now rewrite Hex, Hload, Hbuild, Hwrite.
Qed.

Lemma main_write_failure_witness :
  main str_example
       {| argv := ["extract_snippets.py"; "in.json"; "/ro/out.json"];
          cwd := "/work";
          path_exists := fun _ => true;
          json_load := fun _ => Parsed (PDict [one_entry "z" (PStr "\zero") (PStr "0")]);
          write_error := fun _ => Some "[Errno 30] Read-only file system: '/ro/out.json'" |}
  = ([EvPrint "Error: Failed to write to '/ro/out.json': [Errno 30] Read-only file system: '/ro/out.json'"],
     SysExit 1).
Proof.
  exact (@main_write_failure str_example
    {| argv := ["extract_snippets.py"; "in.json"; "/ro/out.json"];
       cwd := "/work";
       path_exists := fun _ => true;
       json_load := fun _ => Parsed (PDict [one_entry "z" (PStr "\zero") (PStr "0")]);
       write_error := fun _ => Some "[Errno 30] Read-only file system: '/ro/out.json'" |}
    (PDict [one_entry "z" (PStr "\zero") (PStr "0")])
    {| out := [("\<zero>", "0")]; duplicates := [] |}
    "[Errno 30] Read-only file system: '/ro/out.json'"
    eq_refl eq_refl eq_refl eq_refl).
Defined.



Lemma for_items_out_length (py_str : pyval -> string)
      (items : list (string * pyval)) (st : state) :
  for_items py_str items init = Ok st ->
  List.length (out st)
  = List.length (nodup string_dec (contributed_keys py_str items)).
Proof.
  intros Hrun.
  assert (Hnd : NoDup (PyDict.keys (out st))).
  { apply (@for_items_NoDup py_str items init st Hrun). constructor. }
  rewrite <- (length_map fst (out st)). fold (PyDict.keys (out st)).
  apply Nat.le_antisymm; apply NoDup_incl_length;
    try assumption; try apply NoDup_nodup; intros k Hk.
  - apply nodup_In. now apply (@for_items_keys py_str items st Hrun k).
  - apply nodup_In in Hk. now apply (@for_items_keys py_str items st Hrun k).
Qed.

Lemma for_items_no_duplicates (py_str : pyval -> string)
      (items : list (string * pyval)) (st : state) :
  for_items py_str items init = Ok st ->
  duplicates st = [] <-> forall k, occurrences py_str k items <= 1.
Proof.
  intros Hrun. split.
  - intros Hnil k.
    destruct (@for_items_counts py_str items init st Hrun k) as (_ & _ & Hdup).
    rewrite Hnil in Hdup.
    change (false = (1 <? occurrences py_str k items)%nat) in Hdup.
    symmetry in Hdup. apply Nat.ltb_ge in Hdup. exact Hdup.
  - intros Hall. destruct (duplicates st) as [|[k n] d] eqn:Hd; [reflexivity|].
    destruct (@for_items_counts py_str items init st Hrun k) as (_ & _ & Hdup).
    rewrite Hd in Hdup. unfold PyDict.mem in Hdup at 1.
    cbn [PyDict.get] in Hdup. rewrite String.eqb_refl in Hdup.
    change (true = (1 <? occurrences py_str k items)%nat) in Hdup.
    symmetry in Hdup. apply Nat.ltb_lt in Hdup. specialize (Hall k). lia.
Qed.

(** X13: when the input is a table on which the loop completes and the write
    succeeds, main returns after writing the output table once; the first line
    it prints reports the number of distinct keys the entries contribute, and
    it prints a second line, the warning, exactly when two entries contribute
    the same key. *)
Theorem main_success_report (py_str : pyval -> string) (e : env)
        (items : list (string * pyval)) (st : state) :
  path_exists e (input_path e) = true ->
  json_load e (input_path e) = Parsed (PDict items) ->
  build py_str (PDict items) = Ok st ->
  write_error e (output_path e) = None ->
  snd (main py_str e) = Returned /\
  writes (fst (main py_str e)) = [(output_path e, out st)] /\
  exists warning : list string,
    printed (fst (main py_str e))
    = ("Successfully extracted "
       ++ str_of_nat (List.length (nodup string_dec (contributed_keys py_str items)))
       ++ " snippets to '" ++ output_path e ++ "'.") :: warning /\
    List.length warning <= 1 /\
    (warning = [] <-> forall k, occurrences py_str k items <= 1).
Proof.
  intros Hex Hload Hbuild Hwrite. unfold main, save.
  rewrite Hex, Hload, Hbuild, Hwrite. cbn [negb fst snd].
  unfold build in Hbuild. cbn [py_items bind] in Hbuild.
  rewrite <- (@for_items_out_length py_str items st Hbuild).
  pose proof (@for_items_no_duplicates py_str items st Hbuild) as Hdups.
  destruct (duplicates st) as [|p d].
  - split; [reflexivity|]. split; [reflexivity|].
    exists []. split; [reflexivity|]. split; [simpl; lia|].
    split; [intros _; now apply (proj1 Hdups) | reflexivity].
  - split; [reflexivity|]. split; [reflexivity|].
    eexists. split; [reflexivity|]. split; [simpl; lia|].
    split; [discriminate|]. intros H. apply (proj2 Hdups) in H. discriminate H.
Qed.

Lemma main_success_report_witness :
  writes (fst (main str_example
                 (env_of ["extract_snippets.py"; "in.json"; "out.json"]
                    [("in.json",
                      Parsed (PDict [one_entry "a" (PStr "x") (PStr "1");
                                     one_entry "b" (PStr "\y") (PStr "2");
                                     one_entry "c" (PStr "\x") (PStr "3")]))])))
  = [("out.json", [("\<x>", "3"); ("\<y>", "2")])].
Proof.
  exact (proj1 (proj2 (@main_success_report str_example
    (env_of ["extract_snippets.py"; "in.json"; "out.json"]
       [("in.json",
         Parsed (PDict [one_entry "a" (PStr "x") (PStr "1");
                        one_entry "b" (PStr "\y") (PStr "2");
                        one_entry "c" (PStr "\x") (PStr "3")]))])
    [one_entry "a" (PStr "x") (PStr "1");
     one_entry "b" (PStr "\y") (PStr "2");
     one_entry "c" (PStr "\x") (PStr "3")]
    {| out := [("\<x>", "3"); ("\<y>", "2")]; duplicates := [("\<x>", 1)] |}
    eq_refl eq_refl eq_refl eq_refl))).
Defined.

(** X14: the output of a run is not an input for another one: on a table of
    strings as a run writes it, unless it is empty, the loop raises
    AttributeError at the first entry, whose value is a string and not an
    object, so that the second run ends on that exception and writes
    nothing. *)
Theorem build_rejects_own_output (py_str : pyval -> string)
        (table : list (string * string)) :
  table <> [] ->
  build py_str (reloaded table) = Raise AttributeError /\
  (forall e : env,
      path_exists e (input_path e) = true ->
      json_load e (input_path e) = Parsed (reloaded table) ->
      main py_str e = ([], Uncaught AttributeError)).
Proof.
  intros Hne.
  assert (Hraise : build py_str (reloaded table) = Raise AttributeError).
  { destruct table as [|[k v] t]; [now destruct Hne | reflexivity]. }
  split; [exact Hraise|].
  intros e Hex Hload.
  exact (@main_build_raises py_str e (reloaded table) AttributeError Hex Hload Hraise).
Qed.

Lemma build_rejects_own_output_witness :
  build str_example (reloaded (out {| out := [("\<zero>", "0")]; duplicates := [] |}))
  = Raise AttributeError.
Proof.
  refine (proj1 (@build_rejects_own_output str_example [("\<zero>", "0")] _)).
  discriminate.
Defined.
